(** * modern_features.py: a shallow embedding and its properties

    The module under study is a set of small, independent units:
    a generic [Stack], the accessors [first] and [last], the
    [Animal] / [Dog] / [Cat] hierarchy, [format_user_data] and
    [distance].

    Conventions of the embedding:
    - a Python [str] is a list of Unicode code points ([N]);
    - a raised exception is a value of [exn], carried by [outcome];
    - a method that works on a mutable object is a function from the
      object's state to a result and the state afterwards ([M]);
    - a [dict[str, str]] is a finite map [gmap str str];
    - a [float] is a binary64 number of IEEE 754 ([spec_float] at
      precision 53 and exponent bound 1024), every operation rounded to
      nearest, ties to even. *)

From stdpp Require Import base list strings gmap.
From Stdlib Require Import Ascii ZArith QArith SpecFloat.

Local Open Scope list_scope.
Local Open Scope Z_scope.

(** ** Strings *)

Abbreviation char := N (only parsing).
Abbreviation str := (list N) (only parsing).

(** A source literal, character by character. *)
Definition lit (s : String.string) : str :=
  List.map N_of_ascii (String.list_ascii_of_string s).
Arguments lit s%_string.

(** The line feed that ends each row of a triple-quoted literal. *)
Definition nl : char := 10%N.

(** The characters [str.strip()] removes when called without argument:
    the code points Python classifies as whitespace. *)
Definition isspace (c : char) : bool :=
  ((9 <=? c) && (c <=? 13) || (28 <=? c) && (c <=? 32)
   || (c =? 133) || (c =? 160) || (c =? 5760)
   || (8192 <=? c) && (c <=? 8202)
   || (c =? 8232) || (c =? 8233) || (c =? 8239) || (c =? 8287)
   || (c =? 12288))%N.

Fixpoint lstrip (s : str) : str :=
  match s with
  | c :: s' => if isspace c then lstrip s' else s
  | [] => []
  end.

Definition rstrip (s : str) : str := rev (lstrip (rev s)).

(** [s.strip()]: whitespace is dropped from both ends, never from inside. *)
Definition strip (s : str) : str := rstrip (lstrip s).

(** [s.split("\n")]: the rows of a block of text. *)
Fixpoint split_lines (s : str) : list str :=
  match s with
  | [] => [[]]
  | c :: s' =>
      if (c =? nl)%N then [] :: split_lines s'
      else match split_lines s' with
           | row :: rows => (c :: row) :: rows
           | [] => [[c]]
           end
  end.

(** ** Exceptions and results *)

Inductive exn : Type :=
  | IndexError
  | KeyError (key : str)
  | AttributeError
  | OverflowError.

Inductive outcome (A : Type) : Type :=
  | Ok (a : A)
  | Raise (e : exn).
Arguments Ok {A} a.
Arguments Raise {A} e.

#[global] Instance outcome_ret : MRet outcome := @Ok.
#[global] Instance outcome_bind : MBind outcome := fun A B f r =>
  match r with
  | Ok a => f a
  | Raise e => Raise e
  end.

(** A call on a mutable object of state [S]: the outcome and the state
    the object is left in.  An exception leaves the state it found when
    it was raised. *)
Definition M (S A : Type) : Type := S -> outcome A * S.

#[global] Instance M_ret {S} : MRet (M S) := fun A a s => (Ok a, s).
#[global] Instance M_bind {S} : MBind (M S) := fun A B f m s =>
  match m s with
  | (Ok a, s') => f a s'
  | (Raise e, s') => (Raise e, s')
  end.

(** ** Built-in list operations *)

Section ListOps.
Context {T : Type}.

(** [l.pop()]: the last element and the list without it; [None] on an
    empty list, where Python raises [IndexError]. *)
Fixpoint list_pop (l : list T) : option (T * list T) :=
  match l with
  | [] => None
  | x :: l' =>
      match list_pop l' with
      | None => Some (x, [])
      | Some (y, r) => Some (y, x :: r)
      end
  end.

(** [l[i]] with Python's index rule: a negative index counts from the
    end, and an index outside the list raises [IndexError]. *)
Definition getitem (l : list T) (i : Z) : outcome T :=
  let n := Z.of_nat (length l) in
  let j := if i <? 0 then i + n else i in
  if (j <? 0) || (n <=? j) then Raise IndexError
  else match l !! Z.to_nat j with
       | Some x => Ok x
       | None => Raise IndexError
       end.
End ListOps.

(** ** class Stack[T] *)

Record Stack (T : Type) : Type := mkStack { items : list T }.
Arguments mkStack {T} items.
Arguments items {T} s.

Section StackOps.
Context {T : Type}.

(** [Stack()]: [__init__] binds [items] to a new empty list. *)
Definition new_stack : Stack T := mkStack [].

Definition push (item : T) : M (Stack T) () := fun self =>
  (Ok (), mkStack (items self ++ [item])).

Definition pop : M (Stack T) T := fun self =>
  match list_pop (items self) with
  | Some (x, rest) => (Ok x, mkStack rest)
  | None => (Raise IndexError, self)
  end.

(** A client that pushes the values of [vs], first to last. *)
Fixpoint push_all (vs : list T) : M (Stack T) () :=
  match vs with
  | [] => mret ()
  | v :: vs' => push v ≫= λ _, push_all vs'
  end.

(** A client that pops [n] times and collects what it got, in the
    order it got it. *)
Fixpoint pop_n (n : nat) : M (Stack T) (list T) :=
  match n with
  | O => mret []
  | S n' => x ← pop; xs ← pop_n n'; mret (x :: xs)
  end.
End StackOps.

(** ** first and last *)

Section Accessors.
Context {T : Type}.

(** [items[i]] reads the sequence the caller passed and leaves it as
    it is. *)
Definition subscript (i : Z) : M (list T) T := fun items =>
  (getitem items i, items).

Definition first : M (list T) T := subscript 0.

Definition last : M (list T) T := subscript (-1).
End Accessors.

(** ** class Animal, class Dog(Animal), class Cat(Animal) *)

Inductive class : Type := Animal | Dog | Cat.

(** An instance has no attribute of its own: all there is to it is the
    class it was made from. *)
Record instance : Type := new { class_of : class }.

(** The text the [sound] method written in the body of a class returns,
    if the class statement has one. *)
Definition own_sound (c : class) : option str :=
  match c with
  | Animal => Some (lit "Some sound")
  | Dog => Some (lit "Woof!")
  | Cat => Some (lit "Meow!")
  end.

(** Method resolution order: the class, then its base. *)
Definition mro (c : class) : list class :=
  match c with
  | Animal => [Animal]
  | Dog => [Dog; Animal]
  | Cat => [Cat; Animal]
  end.

(** Attribute lookup takes the first definition along the order. *)
Fixpoint resolve_sound (cs : list class) : outcome str :=
  match cs with
  | [] => Raise AttributeError
  | c :: cs' =>
      match own_sound c with
      | Some s => Ok s
      | None => resolve_sound cs'
      end
  end.

(** [self.sound()] *)
Definition sound (self : instance) : outcome str :=
  resolve_sound (mro (class_of self)).

(** ** format_user_data *)

(** [d[k]] *)
Definition dict_getitem (d : gmap str str) (k : str) : outcome str :=
  match d !! k with
  | Some v => Ok v
  | None => Raise (KeyError k)
  end.

(** [d.get(k, fallback)] *)
Definition dict_get (d : gmap str str) (k fallback : str) : str :=
  match d !! k with
  | Some v => v
  | None => fallback
  end.

(** The eight blanks before each row of the template, and the four
    before its closing quotes. *)
Definition indent : str := lit "        ".
Definition closing_indent : str := lit "    ".

Definition format_user_data (user_data : gmap str str) : outcome str :=
  v ← dict_getitem user_data (lit "name");
  let name := lit "User: " ++ v in
  v ← dict_getitem user_data (lit "status");
  let status := lit "Status: " ++ v in
  v_name ← dict_getitem user_data (lit "name");
  let v_email := dict_get user_data (lit "email") (lit "N/A") in
  v_status ← dict_getitem user_data (lit "status");
  let result :=
    [nl] ++ indent ++ lit "Name: " ++ v_name ++
    [nl] ++ indent ++ lit "Email: " ++ v_email ++
    [nl] ++ indent ++ lit "Status: " ++ v_status ++
    [nl] ++ closing_indent in
  mret (strip result).

(** ** type Point and distance *)

Abbreviation float := spec_float (only parsing).

Definition fsub : float -> float -> float := SFsub 53 1024.
Definition fadd : float -> float -> float := SFadd 53 1024.
Definition fmul : float -> float -> float := SFmul 53 1024.
Definition fsqrt : float -> float := SFsqrt 53 1024.

(** The float a literal such as [3.0] denotes. *)
Definition float_of_Z (z : Z) : float := binary_normalize 53 1024 z 0 false.

(** [x * 2.0 ** k], for the examples far from 1. *)
Definition scaled (z k : Z) : float := SFldexp 53 1024 (float_of_Z z) k.

Definition one : float := float_of_Z 1.

(** What [**] may return on a float: a float or, for a negative base
    and an exponent that is not whole, a complex number (whose parts
    are of no use here). *)
Inductive number : Type :=
  | Float (f : float)
  | Complex.

(** [iv ** 2] on a float.  The cases are those [float.__pow__] tells
    apart before it leaves the rest to the C library: a NaN base comes
    back, an infinite base gives [inf], a zero base gives [0.0], a
    negative base is replaced by its absolute value (2 is even, so the
    sign is not put back), base 1.0 gives 1.0.  The call to [pow] is
    taken as the rounded square; a result out of range is
    [OverflowError], a result that underflows is returned as it is. *)
Definition float_pow_2 (iv : float) : outcome float :=
  match iv with
  | S754_nan => Ok iv
  | S754_infinity _ => Ok (SFabs iv)
  | S754_zero _ => Ok (S754_zero false)
  | S754_finite _ _ _ =>
      let iv := SFabs iv in
      if SFeqb iv one then Ok one
      else
        let ix := fmul iv iv in
        match ix with
        | S754_infinity _ => Raise OverflowError
        | _ => Ok ix
        end
  end.

(** [iv ** 0.5] on a float, with the same cases; here a negative base
    makes the result complex.  The call to [pow] is taken as the rounded
    square root, which is never out of range. *)
Definition float_pow_half (iv : float) : outcome number :=
  match iv with
  | S754_nan => Ok (Float iv)
  | S754_infinity _ => Ok (Float (SFabs iv))
  | S754_zero _ => Ok (Float (S754_zero false))
  | S754_finite true _ _ => Ok Complex
  | S754_finite false _ _ =>
      if SFeqb iv one then Ok (Float one) else Ok (Float (fsqrt iv))
  end.

Definition Point : Type := float * float.

Definition distance (p1 p2 : Point) : outcome number :=
  let '(x1, y1) := p1 in
  let '(x2, y2) := p2 in
  a ← float_pow_2 (fsub x2 x1);
  b ← float_pow_2 (fsub y2 y1);
  float_pow_half (fadd a b).

(** The formula in the words of the specification, "square root of the
    sum of squared coordinate differences", in binary64 arithmetic with
    no case set apart and no exception. *)
Definition euclid_binary64 (p1 p2 : Point) : float :=
  let dx := fsub (fst p2) (fst p1) in
  let dy := fsub (snd p2) (snd p1) in
  fsqrt (fadd (fmul dx dx) (fmul dy dy)).

(** A finite difference whose square is out of range. *)
Definition square_overflows (d : float) : bool :=
  match d, fmul d d with
  | S754_finite _ _ _, S754_infinity _ => true
  | _, _ => false
  end.

(** The rational a finite float stands for. *)
Definition F2Q (x : float) : option Q :=
  match x with
  | S754_zero _ => Some 0%Q
  | S754_finite s m e =>
      Some (inject_Z (cond_Zopp s (Zpos m)) * Qpower 2 e)%Q
  | _ => None
  end.

(** [r] is the Euclidean distance of [p1] and [p2]: all five numbers are
    finite, [r] is not negative and its square is the sum of the squares
    of the coordinate differences, with no rounding anywhere. *)
Definition is_euclidean (p1 p2 : Point) (r : float) : bool :=
  match F2Q (fst p1), F2Q (snd p1), F2Q (fst p2), F2Q (snd p2), F2Q r with
  | Some x1, Some y1, Some x2, Some y2, Some d =>
      (Qle_bool 0 d &&
       Qeq_bool (d * d) ((x2 - x1) * (x2 - x1) + (y2 - y1) * (y2 - y1)))%Q
  | _, _, _, _, _ => false
  end.

(** The sign bit is clear (zero, finite or infinite), or the float is a
    NaN: what a sum of squares can be. *)
Definition not_negative (x : float) : bool :=
  match x with
  | S754_zero s | S754_infinity s | S754_finite s _ _ => negb s
  | S754_nan => true
  end.

(** The points of [main] and of the examples. *)
Definition origin : Point := (float_of_Z 0, float_of_Z 0).
Definition point_3_4 : Point := (float_of_Z 3, float_of_Z 4).
Definition point_far : Point := (scaled 1 600, float_of_Z 0).
Definition point_near : Point := (scaled 1 (-600), float_of_Z 0).

(** The mappings of the examples in [main] and in the properties. *)
Definition alice : gmap str str :=
  <[lit "name" := lit "Alice"]>
    (<[lit "status" := lit "active"]>
       (<[lit "email" := lit "alice@example.com"]> ∅)).

Definition bob : gmap str str :=
  <[lit "name" := lit "Bob"]> (<[lit "status" := lit "idle"]> ∅).

(** A mapping without "name". *)
Definition status_only : gmap str str := <[lit "status" := lit "active"]> ∅.

(** The rows the first property lists, as it lists them. *)
Definition bare_rows : list str :=
  [lit "Name: Alice"; lit "Email: alice@example.com"; lit "Status: active"].

(** The rows [format_user_data alice] has: the second and the third keep
    the blanks the template has before them. *)
Definition alice_rows : list str :=
  [lit "Name: Alice";
   indent ++ lit "Email: alice@example.com";
   indent ++ lit "Status: active"].

(** Alice's mapping with a key the function never reads. *)
Definition alice_with_age : gmap str str := <[lit "age" := lit "30"]> alice.

(** Two mappings for one block: in the first the name brings an Email
    row of its own, in the second the e-mail does. *)
Definition row_in_name : gmap str str :=
  <[lit "name" := lit "Eve" ++ [nl] ++ indent ++ lit "Email: " ++ lit "a@x"]>
    (<[lit "email" := lit "b@y"]> (<[lit "status" := lit "ok"]> ∅)).

Definition row_in_email : gmap str str :=
  <[lit "name" := lit "Eve"]>
    (<[lit "email" := lit "a@x" ++ [nl] ++ indent ++ lit "Email: " ++ lit "b@y"]>
       (<[lit "status" := lit "ok"]> ∅)).

(** * Properties *)

(** ** Helper facts on the built-in operations *)

Section ListFacts.
Context {T : Type}.

Lemma list_pop_snoc (l : list T) (x : T) : list_pop (l ++ [x]) = Some (x, l).
Proof.
  induction l as [|y l IH]; simpl; [reflexivity|].
  rewrite IH. reflexivity.
Qed.

Lemma getitem_zero (x : T) (l : list T) : getitem (x :: l) 0 = Ok x.
Proof.
  unfold getitem.
  replace (0 <? 0) with false by reflexivity.
  assert (Hn : (Z.of_nat (length (x :: l)) <=? 0) = false).
  { apply Z.leb_gt. simpl length. lia. }
  rewrite Hn. reflexivity.
Qed.

Lemma getitem_minus_one (l : list T) (y : T) : getitem (l ++ [y]) (-1) = Ok y.
Proof.
  unfold getitem.
  replace (-1 <? 0) with true by reflexivity.
  rewrite length_app. simpl length.
  assert (Hj : -1 + Z.of_nat (length l + 1) = Z.of_nat (length l)) by lia.
  rewrite Hj.
  assert (H0 : (Z.of_nat (length l) <? 0) = false) by (apply Z.ltb_ge; lia).
  assert (H1 : (Z.of_nat (length l + 1) <=? Z.of_nat (length l)) = false)
    by (apply Z.leb_gt; lia).
  rewrite H0, H1, Nat2Z.id. simpl.
  rewrite list_lookup_middle by reflexivity. reflexivity.
Qed.
End ListFacts.

Lemma lstrip_app_stop (l r : str) (c : char) :
  isspace c = false -> lstrip (l ++ c :: r) = lstrip l ++ c :: r.
Proof.
  intros Hc. induction l as [|a l IH]; simpl.
  - rewrite Hc. reflexivity.
  - destruct (isspace a); [exact IH | reflexivity].
Qed.

Lemma rstrip_app_stop (l r : str) (c : char) :
  isspace c = false -> rstrip (l ++ c :: r) = l ++ c :: rstrip r.
Proof.
  intros Hc. unfold rstrip.
  rewrite rev_app_distr. simpl rev. rewrite <- app_assoc. simpl.
  rewrite (lstrip_app_stop _ _ _ Hc).
  rewrite rev_app_distr. simpl rev. rewrite rev_involutive.
  rewrite <- app_assoc. reflexivity.
Qed.

(** What [strip] leaves of the template once the three values are in:
    the blanks before [Name] and after the status go, the blanks inside
    stay.  The tail after the last colon is the only part whose length
    depends on the value. *)
Lemma strip_template (n e s : str) :
  strip ([nl] ++ indent ++ lit "Name: " ++ n ++
         [nl] ++ indent ++ lit "Email: " ++ e ++
         [nl] ++ indent ++ lit "Status: " ++ s ++
         [nl] ++ closing_indent)
  = lit "Name: " ++ n ++
    [nl] ++ indent ++ lit "Email: " ++ e ++
    [nl] ++ indent ++ lit "Status:" ++
    rstrip (lit " " ++ s ++ [nl] ++ closing_indent).
Proof.
  unfold strip.
  change ([nl] ++ indent ++ lit "Name: " ++ n ++
          [nl] ++ indent ++ lit "Email: " ++ e ++
          [nl] ++ indent ++ lit "Status: " ++ s ++ [nl] ++ closing_indent)
    with (([nl] ++ indent) ++ 78%N ::
          (lit "ame: " ++ n ++ [nl] ++ indent ++ lit "Email: " ++ e ++
           [nl] ++ indent ++ lit "Status: " ++ s ++ [nl] ++ closing_indent)).
  rewrite lstrip_app_stop by reflexivity.
  change (lstrip ([nl] ++ indent)) with (@nil N).
  rewrite app_nil_l.
  replace (78%N :: lit "ame: " ++ n ++ [nl] ++ indent ++ lit "Email: " ++ e ++
           [nl] ++ indent ++ lit "Status: " ++ s ++ [nl] ++ closing_indent)
    with ((lit "Name: " ++ n ++ [nl] ++ indent ++ lit "Email: " ++ e ++
           [nl] ++ indent ++ lit "Status") ++ 58%N ::
          (lit " " ++ s ++ [nl] ++ closing_indent)).
  - rewrite rstrip_app_stop by reflexivity.
    rewrite <- !app_assoc. reflexivity.
  - rewrite <- !app_assoc. reflexivity.
Qed.

(** ** The calls of [main] *)

Example main_stack :
  (push 1%nat ≫= λ _, push 2%nat ≫= λ _, pop) new_stack
  = (Ok 2%nat, mkStack [1%nat]).
Proof. reflexivity. Qed.

Example main_first_last :
  first [1; 2; 3; 4; 5] = (Ok 1, [1; 2; 3; 4; 5]) /\
  last [1; 2; 3; 4; 5] = (Ok 5, [1; 2; 3; 4; 5]).
Proof. split; reflexivity. Qed.

Example main_format_user_data :
  format_user_data alice
  = Ok (lit "Name: Alice" ++ [nl] ++
        lit "        Email: alice@example.com" ++ [nl] ++
        lit "        Status: active").
Proof. vm_compute. reflexivity. Qed.

(** A status that is blank from end to end goes with the blanks of the
    template, and the blank after the colon with it. *)
Example blank_status_is_stripped :
  format_user_data
    (<[lit "name" := lit "Bob"]> (<[lit "status" := lit "  "]> ∅))
  = Ok (lit "Name: Bob" ++ [nl] ++
        lit "        Email: N/A" ++ [nl] ++
        lit "        Status:").
Proof. vm_compute. reflexivity. Qed.

(** ** Stack *)

Section StackFacts.
Context {T : Type}.

Lemma push_all_items (vs : list T) (s : Stack T) :
  push_all vs s = (Ok (), mkStack (items s ++ vs)).
Proof.
  revert s. induction vs as [|v vs IH]; intros [l]; simpl.
  - rewrite app_nil_r. reflexivity.
  - unfold mbind, M_bind, push. simpl. rewrite IH. simpl.
    rewrite <- app_assoc. reflexivity.
Qed.

Lemma pop_snoc (l : list T) (x : T) :
  pop (mkStack (l ++ [x])) = (Ok x, mkStack l).
Proof. unfold pop. simpl. rewrite list_pop_snoc. reflexivity. Qed.

Lemma pop_n_items (vs l : list T) :
  pop_n (length vs) (mkStack (l ++ vs)) = (Ok (rev vs), mkStack l).
Proof.
  induction vs as [|x vs IH] using rev_ind; simpl.
  - rewrite app_nil_r. reflexivity.
  - rewrite length_app, Nat.add_comm. simpl.
    unfold mbind, M_bind at 1.
    rewrite app_assoc, pop_snoc.
    unfold M_bind. rewrite IH.
    rewrite rev_app_distr. reflexivity.
Qed.

(** C2. Pushing v1..vn in this order on a stack just built and then
    popping n times hands the values back last to first, vn..v1, and
    the stack is empty again afterwards. *)
Theorem stack_lifo (vs : list T) :
  (push_all vs ≫= λ _, pop_n (length vs)) new_stack
  = (Ok (rev vs), new_stack).
Proof.
  unfold mbind, M_bind. rewrite push_all_items. simpl.
  apply (pop_n_items vs []).
Qed.

(** C3. [pop] on a stack whose [items] has no element raises the
    empty-list [IndexError]: no value comes back and the stack is as it
    was.  A stack just built is such a stack. *)
Theorem pop_empty_raises (s : Stack T) :
  items s = [] -> pop s = (Raise IndexError, s).
Proof.
  intros Hs. unfold pop. rewrite Hs. reflexivity.
Qed.
End StackFacts.

Lemma pop_empty_raises_witness :
  items (@new_stack nat) = [] /\
  pop (@new_stack nat) = (Raise IndexError, new_stack).
Proof.
  split; [reflexivity | apply (pop_empty_raises (@new_stack nat)); reflexivity].
Defined.

(** ** first and last *)

(** C4. On an empty sequence, whatever the type of its elements, both
    [first] and [last] raise [IndexError] and return nothing. *)
Theorem first_last_empty (T : Type) :
  first (@nil T) = (Raise IndexError, []) /\
  last (@nil T) = (Raise IndexError, []).
Proof. split; reflexivity. Qed.

(** C5. On a sequence that is not empty, [first] returns the element at
    index 0 and [last] the element at index [length - 1]; the sequence is
    the same after the call as before; on a sequence [[a]] both return
    [a]. *)
Theorem first_last_nonempty {T : Type} (items : list T) :
  items <> [] ->
  (exists x, items !! 0%nat = Some x /\ first items = (Ok x, items)) /\
  (exists y, items !! (length items - 1)%nat = Some y /\
             last items = (Ok y, items)) /\
  (forall a, items = [a] ->
             first items = (Ok a, items) /\ last items = (Ok a, items)).
Proof.
  intros Hne. split; [|split].
  - destruct items as [|x l]; [congruence|].
    exists x. split; [reflexivity|].
    unfold first, subscript. rewrite getitem_zero. reflexivity.
  - destruct (exists_last Hne) as [l [y ->]].
    exists y. split.
    + rewrite length_app. simpl.
      replace (length l + 1 - 1)%nat with (length l) by lia.
      apply list_lookup_middle. reflexivity.
    + unfold last, subscript. rewrite getitem_minus_one. reflexivity.
  - intros a ->. split; reflexivity.
Qed.

Lemma first_last_nonempty_witness :
  [3; 1; 2]%nat <> [] /\
  first [3; 1; 2]%nat = (Ok 3%nat, [3; 1; 2]%nat) /\
  last [3; 1; 2]%nat = (Ok 2%nat, [3; 1; 2]%nat).
Proof.
  assert (Hne : [3; 1; 2]%nat <> []) by discriminate.
  split; [exact Hne|].
  destruct (first_last_nonempty [3; 1; 2]%nat Hne)
    as [[x [Hx Hf]] [[y [Hy Hl]] _]].
  simpl in Hx, Hy.
  injection Hx as <-. injection Hy as <-.
  split; assumption.
Defined.

(** ** Animal, Dog, Cat *)

(** C6. [sound()] of any instance of [Dog] is "Woof!", of any instance
    of [Cat] "Meow!", and of an instance of [Animal] itself
    "Some sound". *)
Theorem sound_by_class (self : instance) :
  (class_of self = Dog -> sound self = Ok (lit "Woof!")) /\
  (class_of self = Cat -> sound self = Ok (lit "Meow!")) /\
  (class_of self = Animal -> sound self = Ok (lit "Some sound")).
Proof.
  unfold sound. repeat split; intros ->; reflexivity.
Qed.

Lemma sound_by_class_witness :
  sound (new Dog) = Ok (lit "Woof!") /\
  sound (new Cat) = Ok (lit "Meow!") /\
  sound (new Animal) = Ok (lit "Some sound").
Proof.
  split; [|split].
  - apply (sound_by_class (new Dog)). reflexivity.
  - apply (sound_by_class (new Cat)). reflexivity.
  - apply (sound_by_class (new Animal)). reflexivity.
Defined.

(** ** format_user_data *)

(** With both required keys present the call succeeds, and its value is
    the stripped template. *)
Lemma format_user_data_ok (d : gmap str str) (n s : str) :
  d !! lit "name" = Some n ->
  d !! lit "status" = Some s ->
  format_user_data d
  = Ok (lit "Name: " ++ n ++
        [nl] ++ indent ++ lit "Email: " ++
          dict_get d (lit "email") (lit "N/A") ++
        [nl] ++ indent ++ lit "Status:" ++
          rstrip (lit " " ++ s ++ [nl] ++ closing_indent)).
Proof.
  intros Hn Hs. unfold format_user_data, dict_getitem.
  rewrite Hn, Hs. unfold mbind, outcome_bind, mret, outcome_ret.
  rewrite strip_template. reflexivity.
Qed.

(** C1, as stated, does not hold: the rows of the block returned for the
    mapping of Alice are not exactly "Name: Alice",
    "Email: alice@example.com", "Status: active". *)
Lemma alice_rows_not_bare :
  ~ (exists out, format_user_data alice = Ok out /\ split_lines out = bare_rows).
Proof.
  intros [out [Hout Hrows]].
  vm_compute in Hout. injection Hout as <-.
  vm_compute in Hrows. discriminate Hrows.
Qed.

(** C1, amended. For the mapping of Alice the call returns a block with
    no blank at either end and three rows, in this order: "Name: Alice",
    then "Email: alice@example.com" and "Status: active", each after the
    eight blanks of the template; without those blanks the rows are the
    three the property lists. *)
Theorem format_user_data_alice :
  exists out,
    format_user_data alice = Ok out /\
    strip out = out /\
    split_lines out = alice_rows /\
    List.map lstrip (split_lines out) = bare_rows.
Proof.
  eexists. split; [vm_compute; reflexivity|].
  repeat split; vm_compute; reflexivity.
Qed.

(** C7. With "name" and "status" present and "email" absent the call
    succeeds, and the Email row of the block, the one between the row of
    "name" and the row of "status", reads "Email: N/A" after the blanks
    of the template. *)
Theorem format_user_data_email_fallback (d : gmap str str) (n s : str) :
  d !! lit "name" = Some n ->
  d !! lit "status" = Some s ->
  d !! lit "email" = None ->
  format_user_data d
  = Ok (lit "Name: " ++ n ++
        [nl] ++ indent ++ lit "Email: N/A" ++
        [nl] ++ indent ++ lit "Status:" ++
          rstrip (lit " " ++ s ++ [nl] ++ closing_indent)).
Proof.
  intros Hn Hs He.
  rewrite (format_user_data_ok d n s Hn Hs).
  unfold dict_get. rewrite He. reflexivity.
Qed.

Lemma format_user_data_email_fallback_witness :
  format_user_data bob
  = Ok (lit "Name: " ++ lit "Bob" ++
        [nl] ++ indent ++ lit "Email: N/A" ++
        [nl] ++ indent ++ lit "Status:" ++
          rstrip (lit " " ++ lit "idle" ++ [nl] ++ closing_indent)).
Proof.
  apply (format_user_data_email_fallback bob (lit "Bob") (lit "idle"));
    vm_compute; reflexivity.
Defined.

(** C8. When "name" or "status" is missing the call raises [KeyError]
    for a missing one of the two ("name" when it is missing): nothing is
    put in its place, and what the caller gets is the exception. *)
Theorem format_user_data_missing_key (d : gmap str str) :
  d !! lit "name" = None \/ d !! lit "status" = None ->
  exists k,
    (k = lit "name" \/ k = lit "status") /\
    d !! k = None /\
    format_user_data d = Raise (KeyError k) /\
    (d !! lit "name" = None -> k = lit "name").
Proof.
  intros H. unfold format_user_data, dict_getitem.
  destruct (d !! lit "name") as [n|] eqn:Hn.
  - destruct H as [H|H]; [discriminate H|].
    exists (lit "status"). rewrite H.
    split; [right; reflexivity|].
    split; [reflexivity|].
    split; [reflexivity | discriminate].
  - exists (lit "name").
    split; [left; reflexivity|].
    split; [exact Hn|].
    split; reflexivity.
Qed.

Lemma format_user_data_missing_key_witness :
  exists k,
    (k = lit "name" \/ k = lit "status") /\
    status_only !! k = None /\
    format_user_data status_only = Raise (KeyError k) /\
    (status_only !! lit "name" = None -> k = lit "name").
Proof.
  apply (format_user_data_missing_key status_only).
  left. vm_compute. reflexivity.
Defined.

(** C10. Two mappings that agree at "name", at "email" and at "status"
    (a key absent from both counts as agreeing) make the call end the
    same way, with the same block or the same exception, whatever else
    they hold. *)
Theorem format_user_data_three_keys (d1 d2 : gmap str str) :
  d1 !! lit "name" = d2 !! lit "name" ->
  d1 !! lit "email" = d2 !! lit "email" ->
  d1 !! lit "status" = d2 !! lit "status" ->
  format_user_data d1 = format_user_data d2.
Proof.
  intros Hn He Hs.
  unfold format_user_data, dict_getitem, dict_get.
  rewrite Hn, He, Hs. reflexivity.
Qed.

Lemma format_user_data_three_keys_witness :
  format_user_data alice = format_user_data alice_with_age.
Proof.
  apply (format_user_data_three_keys alice alice_with_age);
    vm_compute; reflexivity.
Defined.

(** * Further properties *)

(** ** Stack: how push and pop compose *)

Section StackMore.
Context {T : Type}.

(** X1. A [push] followed at once by a [pop] hands back the pushed item
    and leaves the stack exactly as it was before the two calls,
    whatever it held. *)
Theorem push_then_pop (x : T) (s : Stack T) :
  (push x ≫= λ _, pop) s = (Ok x, s).
Proof.
  destruct s as [l]. unfold mbind, M_bind, push. simpl.
  apply pop_snoc.
Qed.

(** X2. Pushing any values on any stack and popping as many times gives
    the values back last to first and leaves what was on the stack
    before untouched. *)
Theorem balanced_push_pop_frame (vs : list T) (s : Stack T) :
  (push_all vs ≫= λ _, pop_n (length vs)) s = (Ok (rev vs), s).
Proof.
  destruct s as [l]. unfold mbind, M_bind.
  rewrite push_all_items. simpl.
  apply pop_n_items.
Qed.

(** X3. On a stack that holds something, [pop] succeeds: it returns the
    item that is last in [items] and leaves the items before it, so the
    stack has one item less. *)
Theorem pop_nonempty (s : Stack T) :
  items s <> [] ->
  exists x rest,
    items s = rest ++ [x] /\
    pop s = (Ok x, mkStack rest) /\
    length rest = (length (items s) - 1)%nat.
Proof.
  destruct s as [l]. simpl. intros Hne.
  destruct (exists_last Hne) as [rest [x ->]].
  exists x, rest. split; [reflexivity|]. split.
  - apply pop_snoc.
  - rewrite length_app. simpl. lia.
Qed.

(** X4. Popping more often than the stack has items raises
    [IndexError], and by then the stack is empty: the pops that went
    through before the failing one are not undone. *)
Theorem pop_n_beyond_size (n : nat) (s : Stack T) :
  (length (items s) < n)%nat ->
  pop_n n s = (Raise IndexError, new_stack).
Proof.
  destruct s as [l]. simpl. revert n.
  induction l as [|x l IH] using rev_ind; intros n Hlt.
  - destruct n as [|n]; [lia|]. reflexivity.
  - destruct n as [|n]; [lia|].
    rewrite length_app in Hlt. simpl in Hlt.
    simpl. unfold mbind, M_bind at 1. rewrite pop_snoc.
    unfold M_bind. rewrite IH by lia. reflexivity.
Qed.

(** X5. What [pop] answers is what [last] answers on the items of the
    stack: the same item, or [IndexError] from both when there is
    none. *)
Theorem pop_reads_last (s : Stack T) :
  fst (pop s) = fst (last (items s)).
Proof.
  destruct s as [l]. simpl.
  destruct l as [|a l'] using rev_ind; [reflexivity|].
  rewrite pop_snoc. unfold last, subscript. simpl.
  rewrite getitem_minus_one. reflexivity.
Qed.
End StackMore.

Lemma pop_nonempty_witness :
  exists x rest,
    items (mkStack [1; 2]%nat) = rest ++ [x] /\
    pop (mkStack [1; 2]%nat) = (Ok x, mkStack rest) /\
    length rest = (length (items (mkStack [1; 2]%nat)) - 1)%nat.
Proof.
  apply (pop_nonempty (mkStack [1; 2]%nat)). simpl. discriminate.
Defined.

Lemma pop_n_beyond_size_witness :
  pop_n 3 (mkStack [1; 2]%nat) = (Raise IndexError, new_stack).
Proof.
  apply (pop_n_beyond_size 3 (mkStack [1; 2]%nat)). simpl. lia.
Defined.

(** ** first and last: reversal and concatenation *)

(** X6. [last] of a sequence is [first] of the sequence reversed, and
    [first] is [last] of the reversed one; on the empty sequence all
    raise [IndexError]. *)
Theorem last_is_first_of_rev {T : Type} (l : list T) :
  fst (last l) = fst (first (rev l)) /\
  fst (first l) = fst (last (rev l)).
Proof.
  unfold first, last, subscript. simpl. split.
  - destruct l as [|y l'] using rev_ind; [reflexivity|].
    rewrite rev_app_distr. simpl.
    rewrite getitem_minus_one, getitem_zero. reflexivity.
  - destruct l as [|x l']; [reflexivity|].
    simpl rev. rewrite getitem_minus_one, getitem_zero. reflexivity.
Qed.

(** X7. [first] does not look past the front and [last] not before the
    back: on a concatenation, [first] answers as on the left part when
    that part is not empty, and [last] as on the right part when that
    one is not empty. *)
Theorem first_last_app {T : Type} (a b : list T) :
  (a <> [] -> fst (first (a ++ b)) = fst (first a)) /\
  (b <> [] -> fst (last (a ++ b)) = fst (last b)).
Proof.
  unfold first, last, subscript. simpl. split; intros Hne.
  - destruct a as [|x a']; [congruence|].
    simpl app. rewrite !getitem_zero. reflexivity.
  - destruct (exists_last Hne) as [b' [y ->]].
    rewrite app_assoc, !getitem_minus_one. reflexivity.
Qed.

Lemma first_last_app_witness :
  fst (first ([1; 2] ++ [3; 4])%nat) = fst (first [1; 2]%nat) /\
  fst (last ([1; 2] ++ [3; 4])%nat) = fst (last [3; 4]%nat).
Proof.
  split.
  - apply (first_last_app [1; 2]%nat [3; 4]%nat). discriminate.
  - apply (first_last_app [1; 2]%nat [3; 4]%nat). discriminate.
Defined.

(** ** Animal, Dog, Cat: the overrides take effect *)

(** X8. [sound()] never raises, and two instances answer with the same
    text exactly when they are of the same class: no subclass falls back
    on the text of [Animal]. *)
Theorem sound_tells_class (a b : instance) :
  (exists s, sound a = Ok s) /\
  (sound a = sound b <-> class_of a = class_of b).
Proof.
  destruct a as [[]], b as [[]]; (split; [eexists; reflexivity|]);
    split; intros H; try reflexivity; try discriminate H;
    vm_compute in H; discriminate H.
Qed.

(** ** format_user_data: success, failure and the shape of the block *)

Lemma Ok_inj {A : Type} (a b : A) : Ok a = Ok b -> a = b.
Proof. intros H. congruence. Qed.

Lemma lstrip_idem (s : str) : lstrip (lstrip s) = lstrip s.
Proof.
  induction s as [|c s IH]; simpl; [reflexivity|].
  destruct (isspace c) eqn:Hc; [exact IH|].
  simpl. rewrite Hc. reflexivity.
Qed.

Lemma rstrip_idem (s : str) : rstrip (rstrip s) = rstrip s.
Proof.
  unfold rstrip. rewrite rev_involutive, lstrip_idem. reflexivity.
Qed.

Lemma lstrip_blanks_app (w r : str) :
  forallb isspace w = true -> lstrip (w ++ r) = lstrip r.
Proof.
  induction w as [|c w IH]; simpl; [reflexivity|].
  intros H. apply andb_prop in H as [Hc Hw].
  rewrite Hc. apply IH, Hw.
Qed.

Lemma forallb_rev_true {A : Type} (p : A -> bool) (l : list A) :
  forallb p l = true -> forallb p (rev l) = true.
Proof.
  rewrite !forallb_forall. intros H x Hx. apply H, in_rev, Hx.
Qed.

Lemma rstrip_app_blanks (l w : str) :
  forallb isspace w = true -> rstrip (l ++ w) = rstrip l.
Proof.
  intros Hw. unfold rstrip. rewrite rev_app_distr.
  rewrite lstrip_blanks_app by (apply forallb_rev_true, Hw).
  reflexivity.
Qed.

Lemma forallb_lstrip (p : N -> bool) (s : str) :
  forallb p s = true -> forallb p (lstrip s) = true.
Proof.
  induction s as [|c s IH]; simpl; [reflexivity|].
  intros H. destruct (isspace c).
  - apply andb_prop in H as [_ Hs]. apply IH, Hs.
  - exact H.
Qed.

Lemma forallb_rstrip (p : N -> bool) (s : str) :
  forallb p s = true -> forallb p (rstrip s) = true.
Proof.
  intros H. unfold rstrip.
  apply forallb_rev_true, forallb_lstrip, forallb_rev_true, H.
Qed.

(** A text that begins with a character that is not whitespace and ends
    with one, or with what [rstrip] left after one, is its own
    [strip]. *)
Lemma strip_fixed (c1 c2 : char) (a b : str) :
  isspace c1 = false -> isspace c2 = false ->
  strip (c1 :: a ++ c2 :: rstrip b) = c1 :: a ++ c2 :: rstrip b.
Proof.
  intros H1 H2. unfold strip. simpl lstrip. rewrite H1.
  change (c1 :: a ++ c2 :: rstrip b) with ((c1 :: a) ++ c2 :: rstrip b).
  rewrite (rstrip_app_stop (c1 :: a) (rstrip b) c2 H2).
  rewrite rstrip_idem. reflexivity.
Qed.

(** The tail of the block after "Status:" does not depend on the blanks
    the template ends with. *)
Lemma status_tail (s : str) :
  rstrip (lit " " ++ s ++ [nl] ++ closing_indent) = rstrip (lit " " ++ s).
Proof.
  rewrite (app_assoc (lit " ") s).
  apply rstrip_app_blanks. reflexivity.
Qed.

Lemma split_lines_one (a : str) :
  forallb (fun c => negb (c =? nl)%N) a = true -> split_lines a = [a].
Proof.
  induction a as [|c a IH]; simpl; [reflexivity|].
  intros H. apply andb_prop in H as [Hc Ha].
  apply negb_true_iff in Hc. rewrite Hc, (IH Ha). reflexivity.
Qed.

Lemma split_lines_app_nl (a b : str) :
  forallb (fun c => negb (c =? nl)%N) a = true ->
  split_lines (a ++ nl :: b) = a :: split_lines b.
Proof.
  induction a as [|c a IH]; simpl; [reflexivity|].
  intros H. apply andb_prop in H as [Hc Ha].
  apply negb_true_iff in Hc. rewrite Hc, (IH Ha). reflexivity.
Qed.

Lemma key_status_name : lit "status" <> lit "name".
Proof. intros H. vm_compute in H. discriminate H. Qed.

Lemma key_status_email : lit "status" <> lit "email".
Proof. intros H. vm_compute in H. discriminate H. Qed.

Lemma key_email_name : lit "email" <> lit "name".
Proof. intros H. vm_compute in H. discriminate H. Qed.

Lemma key_email_status : lit "email" <> lit "status".
Proof. intros H. vm_compute in H. discriminate H. Qed.

(** A call that succeeded found both required keys. *)
Lemma format_user_data_ok_keys (d : gmap str str) (out : str) :
  format_user_data d = Ok out ->
  exists n s, d !! lit "name" = Some n /\ d !! lit "status" = Some s.
Proof.
  intros Hout. unfold format_user_data, dict_getitem in Hout.
  destruct (d !! lit "name") as [n|]; [|discriminate Hout].
  destruct (d !! lit "status") as [s|]; [|discriminate Hout].
  exists n, s. split; reflexivity.
Qed.

(** X9. The call succeeds exactly when the mapping has both "name" and
    "status"; whether it has "email", or anything else, plays no part
    in that. *)
Theorem format_user_data_ok_iff (d : gmap str str) :
  (exists out, format_user_data d = Ok out) <->
  (is_Some (d !! lit "name") /\ is_Some (d !! lit "status")).
Proof.
  split.
  - intros [out Hout].
    destruct (format_user_data_ok_keys d out Hout) as [n [s [Hn Hs]]].
    rewrite Hn, Hs. split; eexists; reflexivity.
  - intros [[n Hn] [s Hs]].
    eexists. apply (format_user_data_ok d n s Hn Hs).
Qed.

(** X10. The only exception the call can raise is [KeyError], and only
    for "name" or "status": for "name" when it is missing, for "status"
    when "name" is there and "status" is not.  A missing "email" never
    raises. *)
Theorem format_user_data_raises_only (d : gmap str str) (e : exn) :
  format_user_data d = Raise e ->
  (e = KeyError (lit "name") /\ d !! lit "name" = None) \/
  (e = KeyError (lit "status") /\ d !! lit "status" = None /\
   is_Some (d !! lit "name")).
Proof.
  unfold format_user_data, dict_getitem.
  destruct (d !! lit "name") as [n|] eqn:Hn.
  - destruct (d !! lit "status") as [s|] eqn:Hs.
    + intros H. discriminate H.
    + intros H. injection H as <-. right.
      split; [reflexivity|]. split; [reflexivity|]. eexists; reflexivity.
  - intros H. injection H as <-. left. split; reflexivity.
Qed.

Lemma format_user_data_raises_only_witness :
  (KeyError (lit "name") = KeyError (lit "name") /\
   status_only !! lit "name" = None) \/
  (KeyError (lit "name") = KeyError (lit "status") /\
   status_only !! lit "status" = None /\
   is_Some (status_only !! lit "name")).
Proof.
  apply (format_user_data_raises_only status_only (KeyError (lit "name"))).
  vm_compute. reflexivity.
Defined.

(** X11. A block the call returns begins with "Name: " and has no
    whitespace at either end: stripping it again changes nothing. *)
Theorem format_user_data_trimmed (d : gmap str str) (out : str) :
  format_user_data d = Ok out ->
  strip out = out /\ exists rest, out = lit "Name: " ++ rest.
Proof.
  intros Hout.
  destruct (format_user_data_ok_keys d out Hout) as [n [s [Hn Hs]]].
  rewrite (format_user_data_ok d n s Hn Hs) in Hout.
  apply Ok_inj in Hout. subst out. split; [|eexists; reflexivity].
  set (e := dict_get d (lit "email") (lit "N/A")).
  set (t := lit " " ++ s ++ [nl] ++ closing_indent).
  replace (lit "Name: " ++ n ++ [nl] ++ indent ++ lit "Email: " ++ e ++
           [nl] ++ indent ++ lit "Status:" ++ rstrip t)
    with (78%N :: (lit "ame: " ++ n ++ [nl] ++ indent ++ lit "Email: " ++ e ++
           [nl] ++ indent ++ lit "Status") ++ 58%N :: rstrip t)
    by (rewrite <- !app_assoc; reflexivity).
  apply strip_fixed; reflexivity.
Qed.

Lemma format_user_data_trimmed_witness :
  strip (lit "Name: Bob" ++ [nl] ++ indent ++ lit "Email: N/A" ++
         [nl] ++ indent ++ lit "Status: idle")
  = lit "Name: Bob" ++ [nl] ++ indent ++ lit "Email: N/A" ++
    [nl] ++ indent ++ lit "Status: idle" /\
  exists rest,
    lit "Name: Bob" ++ [nl] ++ indent ++ lit "Email: N/A" ++
    [nl] ++ indent ++ lit "Status: idle" = lit "Name: " ++ rest.
Proof.
  apply (format_user_data_trimmed bob). vm_compute. reflexivity.
Defined.

(** X12. With "name", "status" and "email" all present the call
    succeeds, and the Email row carries the value of "email" as it is,
    after the blanks of the template; the fallback is not used. *)
Theorem format_user_data_email_present (d : gmap str str) (n s e : str) :
  d !! lit "name" = Some n ->
  d !! lit "status" = Some s ->
  d !! lit "email" = Some e ->
  format_user_data d
  = Ok (lit "Name: " ++ n ++
        [nl] ++ indent ++ lit "Email: " ++ e ++
        [nl] ++ indent ++ lit "Status:" ++
          rstrip (lit " " ++ s ++ [nl] ++ closing_indent)).
Proof.
  intros Hn Hs He.
  rewrite (format_user_data_ok d n s Hn Hs).
  unfold dict_get. rewrite He. reflexivity.
Qed.

Lemma format_user_data_email_present_witness :
  format_user_data alice
  = Ok (lit "Name: " ++ lit "Alice" ++
        [nl] ++ indent ++ lit "Email: " ++ lit "alice@example.com" ++
        [nl] ++ indent ++ lit "Status:" ++
          rstrip (lit " " ++ lit "active" ++ [nl] ++ closing_indent)).
Proof.
  apply (format_user_data_email_present alice);
    vm_compute; reflexivity.
Defined.

(** X13. Whitespace at the end of the value of "status" is lost: two
    mappings that differ only by such whitespace get the same block (or
    the same exception). *)
Theorem format_user_data_status_trailing_blanks
    (d : gmap str str) (s w : str) :
  forallb isspace w = true ->
  format_user_data (<[lit "status" := s ++ w]> d)
  = format_user_data (<[lit "status" := s]> d).
Proof.
  intros Hw. destruct (d !! lit "name") as [n|] eqn:Hn.
  - rewrite (format_user_data_ok _ n (s ++ w));
      [| rewrite lookup_insert_ne by apply key_status_name; exact Hn
       | apply lookup_insert_eq ].
    rewrite (format_user_data_ok _ n s);
      [| rewrite lookup_insert_ne by apply key_status_name; exact Hn
       | apply lookup_insert_eq ].
    unfold dict_get.
    rewrite !lookup_insert_ne by apply key_status_email.
    rewrite !status_tail.
    rewrite (app_assoc (lit " ") s w).
    rewrite (rstrip_app_blanks _ w Hw). reflexivity.
  - unfold format_user_data, dict_getitem.
    rewrite !(lookup_insert_ne d _ _ _ key_status_name).
    rewrite Hn. reflexivity.
Qed.

Lemma format_user_data_status_trailing_blanks_witness :
  format_user_data (<[lit "status" := lit "idle" ++ lit "  "]> bob)
  = format_user_data (<[lit "status" := lit "idle"]> bob).
Proof.
  apply (format_user_data_status_trailing_blanks bob (lit "idle") (lit "  ")).
  reflexivity.
Defined.

(** X14. A mapping without "email" and the same mapping with "email"
    set to "N/A" cannot be told apart from what the call gives. *)
Theorem format_user_data_absent_email_is_na (d : gmap str str) :
  format_user_data (delete (lit "email") d)
  = format_user_data (<[lit "email" := lit "N/A"]> d).
Proof.
  unfold format_user_data, dict_getitem, dict_get.
  rewrite !(lookup_delete_ne d _ _ key_email_name).
  rewrite !(lookup_delete_ne d _ _ key_email_status).
  rewrite !(lookup_insert_ne d _ _ _ key_email_name).
  rewrite !(lookup_insert_ne d _ _ _ key_email_status).
  rewrite lookup_delete_eq, lookup_insert_eq. reflexivity.
Qed.

(** X15. When none of the three values holds a line feed the block has
    exactly three rows: "Name: " and the name; the blanks of the
    template, "Email: " and the e-mail or "N/A"; the blanks of the
    template, "Status:" and the status after one blank, without the
    whitespace it ends with. *)
Theorem format_user_data_three_rows (d : gmap str str) (n s : str) :
  d !! lit "name" = Some n ->
  d !! lit "status" = Some s ->
  forallb (fun c => negb (c =? nl)%N) n = true ->
  forallb (fun c => negb (c =? nl)%N)
          (dict_get d (lit "email") (lit "N/A")) = true ->
  forallb (fun c => negb (c =? nl)%N) s = true ->
  exists out,
    format_user_data d = Ok out /\
    split_lines out
    = [lit "Name: " ++ n;
       indent ++ lit "Email: " ++ dict_get d (lit "email") (lit "N/A");
       indent ++ lit "Status:" ++ rstrip (lit " " ++ s)].
Proof.
  intros Hn Hs Fn Fe Fs.
  rewrite (format_user_data_ok d n s Hn Hs).
  eexists. split; [reflexivity|].
  rewrite status_tail.
  set (e := dict_get d (lit "email") (lit "N/A")) in *.
  set (t := rstrip (lit " " ++ s)).
  assert (Ft : forallb (fun c => negb (c =? nl)%N) t = true).
  { apply forallb_rstrip. rewrite forallb_app, Fs. reflexivity. }
  replace (lit "Name: " ++ n ++ [nl] ++ indent ++ lit "Email: " ++ e ++
           [nl] ++ indent ++ lit "Status:" ++ t)
    with ((lit "Name: " ++ n) ++ nl ::
          (indent ++ lit "Email: " ++ e) ++ nl ::
          (indent ++ lit "Status:" ++ t))
    by (rewrite <- !app_assoc; reflexivity).
  rewrite split_lines_app_nl
    by (rewrite forallb_app, Fn; reflexivity).
  rewrite split_lines_app_nl
    by (rewrite !forallb_app, Fe; reflexivity).
  rewrite split_lines_one
    by (rewrite !forallb_app, Ft; reflexivity).
  reflexivity.
Qed.

Lemma format_user_data_three_rows_witness :
  exists out,
    format_user_data bob = Ok out /\
    split_lines out
    = [lit "Name: " ++ lit "Bob";
       indent ++ lit "Email: " ++ dict_get bob (lit "email") (lit "N/A");
       indent ++ lit "Status:" ++ rstrip (lit " " ++ lit "idle")].
Proof.
  apply (format_user_data_three_rows bob (lit "Bob") (lit "idle"));
    vm_compute; reflexivity.
Defined.

(** X16. The values go into the block as they are: a name that ends
    with a line feed, the blanks of the template and an Email row of its
    own gives the very block that comes out when that row is the start
    of the e-mail instead.  From the block alone one cannot tell where
    the name ends. *)
Theorem format_user_data_forged_row (d1 d2 : gmap str str) (n e e' s : str) :
  d1 !! lit "name" = Some (n ++ [nl] ++ indent ++ lit "Email: " ++ e) ->
  d1 !! lit "email" = Some e' ->
  d1 !! lit "status" = Some s ->
  d2 !! lit "name" = Some n ->
  d2 !! lit "email" = Some (e ++ [nl] ++ indent ++ lit "Email: " ++ e') ->
  d2 !! lit "status" = Some s ->
  format_user_data d1 = format_user_data d2.
Proof.
  intros Hn1 He1 Hs1 Hn2 He2 Hs2.
  rewrite (format_user_data_ok d1 _ s Hn1 Hs1).
  rewrite (format_user_data_ok d2 n s Hn2 Hs2).
  unfold dict_get. rewrite He1, He2.
  f_equal. rewrite <- !app_assoc. reflexivity.
Qed.

Lemma format_user_data_forged_row_witness :
  row_in_name !! lit "name" <> row_in_email !! lit "name" /\
  format_user_data row_in_name = format_user_data row_in_email.
Proof.
  split.
  - intros H. vm_compute in H. discriminate H.
  - apply (format_user_data_forged_row row_in_name row_in_email
             (lit "Eve") (lit "a@x") (lit "b@y") (lit "ok"));
      vm_compute; reflexivity.
Defined.

(** ** distance *)

Lemma one_eq : one = S754_finite false 4503599627370496 (-52).
Proof. vm_compute. reflexivity. Qed.

Lemma SFeqb_one (s : bool) (m : positive) (e : Z) :
  SFeqb (S754_finite s m e) one = true -> S754_finite s m e = one.
Proof.
  rewrite one_eq. unfold SFeqb, SFcompare.
  destruct s; [discriminate|].
  destruct (Z.compare_spec e (-52)) as [He|He|He]; try discriminate.
  destruct (Pos.compare_cont Eq m 4503599627370496) eqn:Hc; try discriminate.
  intros _. apply (Pos.compare_eq m 4503599627370496) in Hc.
  subst. reflexivity.
Qed.

Lemma binary_round_aux_sign (mx ex : Z) (lx : location) :
  not_negative (binary_round_aux 53 1024 false mx ex lx) = true.
Proof.
  unfold binary_round_aux.
  destruct (shr_fexp 53 1024 mx ex lx) as [mrs' e'].
  destruct (shr_fexp 53 1024 _ e' loc_Exact) as [mrs'' e''].
  destruct (shr_m mrs''); [reflexivity | | reflexivity].
  destruct (Z.leb e'' (1024 - 53)); reflexivity.
Qed.

Lemma fmul_self_abs (d : float) : fmul (SFabs d) (SFabs d) = fmul d d.
Proof. destruct d as [[]|[]| |[] m e]; reflexivity. Qed.

Lemma fmul_self_sign (d : float) : not_negative (fmul d d) = true.
Proof.
  destruct d as [[]|[]| |s m e]; try reflexivity.
  rewrite <- fmul_self_abs. apply binary_round_aux_sign.
Qed.

(** [** 2] is the rounded square, unless the square of a finite base is
    out of range. *)
Lemma float_pow_2_square (d : float) :
  float_pow_2 d
  = if square_overflows d then Raise OverflowError else Ok (fmul d d).
Proof.
  destruct d as [[]|[]| |s m e]; try reflexivity.
  unfold float_pow_2, square_overflows.
  destruct (SFeqb (SFabs (S754_finite s m e)) one) eqn:H1.
  - apply SFeqb_one in H1. rewrite <- fmul_self_abs.
    simpl SFabs in *. rewrite H1. vm_compute. reflexivity.
  - cbv zeta. rewrite fmul_self_abs.
    destruct (fmul (S754_finite s m e) (S754_finite s m e)); reflexivity.
Qed.

Lemma fadd_sign (a b : float) :
  not_negative a = true -> not_negative b = true ->
  not_negative (fadd a b) = true.
Proof.
  destruct a as [sa|sa| |sa ma ea]; destruct b as [sb|sb| |sb mb eb];
    simpl not_negative; intros Ha Hb;
    try (apply negb_true_iff in Ha; subst sa);
    try (apply negb_true_iff in Hb; subst sb);
    try reflexivity.
  unfold fadd, SFadd. cbv zeta. unfold cond_Zopp.
  unfold binary_normalize.
  change (Z.pos (fst (shl_align ma ea (Z.min ea eb))) +
          Z.pos (fst (shl_align mb eb (Z.min ea eb))))
    with (Z.pos (fst (shl_align ma ea (Z.min ea eb)) +
                 fst (shl_align mb eb (Z.min ea eb)))).
  unfold binary_round.
  destruct (shl_align _ _ _) as [mz ez].
  apply binary_round_aux_sign.
Qed.


(** [** 0.5] is the rounded square root on what a sum of squares can
    be. *)
Lemma float_pow_half_root (v : float) :
  not_negative v = true -> float_pow_half v = Ok (Float (fsqrt v)).
Proof.
  destruct v as [s|s| |s m e]; simpl not_negative; intros Hv;
    try (apply negb_true_iff in Hv; subst s); try reflexivity.
  unfold float_pow_half.
  destruct (SFeqb (S754_finite false m e) one) eqn:H1; [|reflexivity].
  apply SFeqb_one in H1. rewrite H1. vm_compute. reflexivity.
Qed.

(** Either a square is out of range, or the call returns what the
    formula of the specification gives in binary64 arithmetic. *)
Lemma distance_cases (p1 p2 : Point) :
  distance p1 p2
  = if square_overflows (fsub (fst p2) (fst p1))
       || square_overflows (fsub (snd p2) (snd p1))
    then Raise OverflowError
    else Ok (Float (euclid_binary64 p1 p2)).
Proof.
  destruct p1 as [x1 y1], p2 as [x2 y2].
  unfold distance, euclid_binary64. simpl fst. simpl snd.
  rewrite !float_pow_2_square.
  destruct (square_overflows (fsub x2 x1)); [reflexivity|].
  destruct (square_overflows (fsub y2 y1)); [reflexivity|].
  unfold mbind, outcome_bind. simpl orb. cbv iota.
  apply float_pow_half_root, fadd_sign; apply fmul_self_sign.
Qed.


(** Two more inputs where the call and the Euclidean distance part: the
    distance from the origin to (2.0 ** 600, 0.0) is the float
    2.0 ** 600, and the call raises; the distance to (2.0 ** -600, 0.0)
    is not zero, and the call returns 0.0. *)
Example distance_far_overflows :
  distance origin point_far = Raise OverflowError /\
  is_euclidean origin point_far (scaled 1 600) = true.
Proof. split; vm_compute; reflexivity. Qed.

Example distance_near_underflows :
  distance origin point_near = Ok (Float (float_of_Z 0)) /\
  is_euclidean origin point_near (scaled 1 (-600)) = true.
Proof. split; vm_compute; reflexivity. Qed.


(** ** distance: what it returns, the identity law and symmetry *)


Lemma fsub_diag (x : float) :
  is_Some (F2Q x) -> fsub x x = S754_zero false.
Proof.
  destruct x as [[]|s| |s m e]; intros [q Hq]; try discriminate Hq;
    try reflexivity.
  unfold fsub, SFsub. cbv zeta. rewrite Z.sub_diag. reflexivity.
Qed.

(** X18. The distance of a point with finite coordinates to itself is
    0.0. *)
Theorem distance_self (x y : float) :
  is_Some (F2Q x) -> is_Some (F2Q y) ->
  distance (x, y) (x, y) = Ok (Float (S754_zero false)).
Proof.
  intros Hx Hy. rewrite distance_cases. unfold euclid_binary64.
  simpl fst. simpl snd.
  rewrite (fsub_diag x Hx), (fsub_diag y Hy). reflexivity.
Qed.

Lemma distance_self_witness :
  distance point_3_4 point_3_4 = Ok (Float (S754_zero false)).
Proof.
  apply (distance_self (float_of_Z 3) (float_of_Z 4));
    eexists; vm_compute; reflexivity.
Defined.






